(** * SuppAI API (main.py): the recommendation rule engine

    A shallow embedding of [build_recommendations] and of the [recommend]
    and [send_email] handlers, together with the Python values they work on:
    [str], insertion-ordered [dict], module globals and exceptions. *)

From Stdlib Require Import String Ascii List ZArith Bool Lia.
Import ListNotations.

Open Scope string_scope.
Open Scope list_scope.
Open Scope Z_scope.

(** ** Python strings

    A [str] is represented by its UTF-8 encoding, one [ascii] per byte, so
    that equality of Rocq strings is equality of Python strings.  The
    literals of main.py contain U+2013 (en dash) and U+2011 (non-breaking
    hyphen); they are kept as they are. *)

Module PyStr.

Definition is_ascii_byte (c : ascii) : bool := (nat_of_ascii c <? 128)%nat.

(** [str.isascii()] *)
Fixpoint isascii (s : string) : bool :=
  match s with
  | EmptyString => true
  | String c rest => is_ascii_byte c && isascii rest
  end.

Definition is_upper (c : ascii) : bool :=
  (65 <=? nat_of_ascii c)%nat && (nat_of_ascii c <=? 90)%nat.

Definition lower_byte (c : ascii) : ascii :=
  if is_upper c then ascii_of_nat (nat_of_ascii c + 32) else c.

Fixpoint map_bytes (f : ascii -> ascii) (s : string) : string :=
  match s with
  | EmptyString => EmptyString
  | String c rest => String (f c) (map_bytes f rest)
  end.

(** The case mapping of the Unicode database for strings that are not
    pure ASCII.  It belongs to the Python runtime, not to main.py, and is
    taken as a parameter of the development. *)
Class UnicodeTables : Type := { unicode_lower : string -> string }.

(** [str.lower()]: A-Z go to a-z on an ASCII string; any other string is
    lowered by the runtime's Unicode tables. *)
Definition lower `{UnicodeTables} (s : string) : string :=
  if isascii s then map_bytes lower_byte s else unicode_lower s.

(** Tables that leave non-ASCII strings alone; enough to run the model on
    ASCII country names. *)
Definition ascii_only : UnicodeTables := {| unicode_lower := fun s => s |}.

End PyStr.

(** ** Exceptions and results *)

Inductive exn : Type :=
| KeyError (key : string).

Inductive result (A : Type) : Type :=
| Ok (a : A)
| Raised (e : exn).

Arguments Ok {A} a.
Arguments Raised {A} e.

(** ** Python dictionaries with string keys

    A [dict] keeps its keys in insertion order and assigning to a key that
    is already present replaces the value where it sits.  Both matter for
    [list(unique.values())], so a dictionary is the list of its items in
    insertion order. *)

Module PyDict.

Definition t (V : Type) : Type := list (string * V).

Definition keys {V} (d : t V) : list string := map fst d.

(** [list(d.values())] *)
Definition values {V} (d : t V) : list V := map snd d.

(** [d.get(k)] *)
Fixpoint get {V} (d : t V) (k : string) : option V :=
  match d with
  | [] => None
  | (k', v) :: rest => if (k' =? k)%string then Some v else get rest k
  end.

(** [d[k]] *)
Definition getitem {V} (d : t V) (k : string) : result V :=
  match get d k with
  | Some v => Ok v
  | None => Raised (KeyError k)
  end.

(** [d[k] = v] *)
Fixpoint setitem {V} (d : t V) (k : string) (v : V) : t V :=
  match d with
  | [] => [(k, v)]
  | (k', v') :: rest =>
      if (k' =? k)%string then (k', v) :: rest
      else (k', v') :: setitem rest k v
  end.

End PyDict.

(** ** The data model *)

Record SurveyResponse : Type := {
  energy : Z;
  gut_health : Z;
  muscle_gain : Z;
  stress : Z;
  sleep : Z;
  allergies : Z;
  autoimmune : Z;
  skin : Z;
  digestion : Z;
  country : string;
  email : option string
}.

(** [Field(ge=1, le=5)] *)
Definition in_range (x : Z) : bool := (1 <=? x) && (x <=? 5).

(** The field constraints of [SurveyResponse]: what pydantic has checked
    before the engine runs.  (The syntax check of [EmailStr] is the
    validator library's and is not constrained here.) *)
Definition validated (d : SurveyResponse) : bool :=
  in_range (energy d) && in_range (gut_health d) && in_range (muscle_gain d)
  && in_range (stress d) && in_range (sleep d) && in_range (allergies d)
  && in_range (autoimmune d) && in_range (skin d) && in_range (digestion d).

Record Recommendation : Type := {
  name : string;
  reason : string;
  dosage : option string;
  sources : list string
}.

Record EmailPayload : Type := {
  payload_email : string;
  payload_recommendations : list Recommendation
}.

(** The values of the dictionary that [send_email] answers with. *)
Inductive jvalue : Type :=
| JStr (s : string)
| JInt (n : Z).

(** ** Module globals and the monad of handlers

    [CITATIONS] and [COUNTRY_DEFICIENCY] are module-level dictionaries; a
    function body reads them from the module's globals when it runs.  A
    computation takes the globals, returns a value or raises, and hands the
    globals back.

    The tables have the shape main.py gives them: [CITATIONS] maps a key
    to a list of strings, [COUNTRY_DEFICIENCY] a country to a string.
    Globals of another shape are not globals of this model. *)

Record Globals : Type := {
  CITATIONS : PyDict.t (list string);
  COUNTRY_DEFICIENCY : PyDict.t string
}.

Definition Py (A : Type) : Type := Globals -> result A * Globals.

Definition ret {A} (a : A) : Py A := fun g => (Ok a, g).

Definition bind {A B} (m : Py A) (k : A -> Py B) : Py B :=
  fun g =>
    match m g with
    | (Ok a, g') => k a g'
    | (Raised e, g') => (Raised e, g')
    end.

Notation "x <- m ;; k" := (bind m (fun x => k))
  (at level 61, m at next level, right associativity).

(** [TABLE[key]] on a module-level dictionary *)
Definition global_getitem {V} (table : Globals -> PyDict.t V) (key : string)
  : Py V :=
  fun g => (PyDict.getitem (table g) key, g).

(** [TABLE.get(key)] on a module-level dictionary *)
Definition global_get {V} (table : Globals -> PyDict.t V) (key : string)
  : Py (option V) :=
  fun g => (Ok (PyDict.get (table g) key), g).

(** The globals as main.py binds them at import. *)
Definition module_globals : Globals := {|
  CITATIONS := [
    ("vitamin_d", [
        "Harvard T.H. Chan School of Public Health – Vitamin D and Health";
        "University of Cambridge – Vitamin D and immune modulation"
    ]);
    ("creatine", [
        "University of Nottingham – Creatine and muscle performance";
        "Australian Institute of Sport – Creatine evidence"
    ]);
    ("probiotic", [
        "Johns Hopkins – Gut microbiome and probiotics";
        "Stanford Medicine – Probiotics in GI health"
    ]);
    ("magnesium", [
        "NIH ODS – Magnesium and sleep quality";
        "UC Berkeley – Stress and magnesium relationship"
    ]);
    ("omega_3", [
        "Harvard – Omega-3 and cardiovascular/skin benefits"
    ]);
    ("quercetin", [
        "NC State University – Quercetin and allergies"
    ]);
    ("zinc", [
        "University of Florida – Zinc and skin health"
    ]);
    ("ashwagandha", [
        "University of Michigan – Adaptogens for stress"
    ])
  ];
  COUNTRY_DEFICIENCY := [
    ("uk", "vitamin_d");
    ("ireland", "vitamin_d");
    ("canada", "vitamin_d");
    ("sweden", "vitamin_d");
    ("norway", "vitamin_d")
  ]
|}.

(** ** The rule engine *)

(** [x == "vitamin_d"] for the result of [dict.get]: [None] equals no
    string. *)
Definition eq_str (x : option string) (s : string) : bool :=
  match x with
  | Some v => (v =? s)%string
  | None => false
  end.

(** Lines 153-156: [unique = {}], the loop [unique[r.name] = r] and
    [list(unique.values())]. *)
Definition unique_by_name (recs : list Recommendation)
  : list Recommendation :=
  let unique :=
    fold_left (fun unique r => PyDict.setitem unique (name r) r) recs [] in
  PyDict.values unique.

Section Engine.

Context `{PyStr.UnicodeTables}.

(** [recs.append(x)] on the local list is [recs ++ [x]]. *)
Definition build_recommendations (data : SurveyResponse)
  : Py (list Recommendation) :=
  let recs : list Recommendation := [] in
  recs <-
    (if energy data >=? 4 then
       src <- global_getitem CITATIONS "magnesium" ;;
       ret (recs ++ [{|
         name := "Magnesium Glycinate";
         reason := "Supports cellular energy and relaxation; often low in modern diets.";
         dosage := Some "200–400 mg in the evening";
         sources := src |}])
     else ret recs) ;;
  recs <-
    (if muscle_gain data >=? 3 then
       src <- global_getitem CITATIONS "creatine" ;;
       ret (recs ++ [{|
         name := "Creatine Monohydrate";
         reason := "Improves high‑intensity performance and lean mass in numerous RCTs.";
         dosage := Some "3–5 g daily";
         sources := src |}])
     else ret recs) ;;
  recs <-
    (if (gut_health data >=? 3) || (digestion data >=? 3) then
       src <- global_getitem CITATIONS "probiotic" ;;
       ret (recs ++ [{|
         name := "Multi‑strain Probiotic";
         reason := "Helps balance gut microbiota and supports digestion.";
         dosage := Some "10–20B CFU daily";
         sources := src |}])
     else ret recs) ;;
  recs <-
    (if (stress data >=? 3) || (sleep data >=? 3) then
       src <- global_getitem CITATIONS "ashwagandha" ;;
       ret (recs ++ [{|
         name := "Ashwagandha (KSM‑66/Sensoril)";
         reason := "Adaptogen studied for perceived stress and sleep quality.";
         dosage := Some "300–600 mg daily";
         sources := src |}])
     else ret recs) ;;
  recs <-
    (if (skin data >=? 3) || (allergies data >=? 3) then
       src <- global_getitem CITATIONS "omega_3" ;;
       ret (recs ++ [{|
         name := "Omega‑3 (EPA/DHA)";
         reason := "Anti‑inflammatory support with benefits for skin barrier and allergies.";
         dosage := Some "1–2 g combined EPA/DHA daily";
         sources := src |}])
     else ret recs) ;;
  recs <-
    (if allergies data >=? 4 then
       src <- global_getitem CITATIONS "quercetin" ;;
       ret (recs ++ [{|
         name := "Quercetin";
         reason := "Bioflavonoid studied for mast‑cell stabilization and seasonal allergies.";
         dosage := Some "500–1000 mg daily with food";
         sources := src |}])
     else ret recs) ;;
  recs <-
    (if skin data >=? 4 then
       src <- global_getitem CITATIONS "zinc" ;;
       ret (recs ++ [{|
         name := "Zinc Picolinate";
         reason := "Supports skin integrity and immune function; deficiency correlates with acne.";
         dosage := Some "15–30 mg daily with food";
         sources := src |}])
     else ret recs) ;;
  (* Regional deficiency logic *)
  deficiency <- global_get COUNTRY_DEFICIENCY (PyStr.lower (country data)) ;;
  recs <-
    (if eq_str deficiency "vitamin_d" then
       src <- global_getitem CITATIONS "vitamin_d" ;;
       ret (recs ++ [{|
         name := "Vitamin D3 (cholecalciferol)";
         reason := "High latitude regions have limited UVB; D3 supports immunity and mood.";
         dosage := Some "1000–2000 IU daily";
         sources := src |}])
     else ret recs) ;;
  (* Always keep list unique by name *)
  ret (unique_by_name recs).

(** The engine as the [/recommend] handler calls it: on the globals of
    the freshly imported module. *)
Definition recommendations_for (data : SurveyResponse)
  : result (list Recommendation) :=
  fst (build_recommendations data module_globals).

End Engine.

(** ** The acknowledgement handler *)

(** [POST /send-email]: a dictionary literal, nothing else. *)
Definition send_email (payload : EmailPayload) : Py (PyDict.t jvalue) :=
  ret [ ("status", JStr "queued");
        ("email", JStr (payload_email payload));
        ("count", JInt (Z.of_nat (length (payload_recommendations payload)))) ].

(** ** The recommendation handler *)

Record RecommendationResult : Type := {
  package_image_url : string;
  recommendations : list Recommendation
}.

Section Handler.

Context `{PyStr.UnicodeTables}.

(** [POST /recommend]: the engine's list under a fixed image address. *)
Definition recommend (data : SurveyResponse) : Py RecommendationResult :=
  recs <- build_recommendations data ;;
  (* Generated package image placeholder *)
  let package_image_url :=
    "https://images.unsplash.com/photo-1586015555751-63f17a0b3bd9?q=80&w=1200&auto=format&fit=crop" in
  ret {| package_image_url := package_image_url; recommendations := recs |}.

End Handler.

(** ** Vocabulary of the properties *)

(** The distinct elements of [l], each at the place of its first
    occurrence; [seen] holds what has been met so far. *)
Fixpoint first_occurrences_from (seen l : list string) : list string :=
  match l with
  | [] => []
  | x :: rest =>
      if existsb (String.eqb x) seen then first_occurrences_from seen rest
      else x :: first_occurrences_from (seen ++ [x]) rest
  end.

Definition first_occurrences (l : list string) : list string :=
  first_occurrences_from [] l.

(** The record appended last among those of [recs] named [n]. *)
Definition last_named (n : string) (recs : list Recommendation)
  : option Recommendation :=
  find (fun r => (name r =? n)%string) (rev recs).

(** [out] holds a recommendation named [n]. *)
Definition recommends (out : list Recommendation) (n : string) : Prop :=
  exists r, In r out /\ name r = n.

(** A record named [n] has this reason, this dosage, and the citations
    that the module's [CITATIONS] holds under [key]. *)
Definition carries (out : list Recommendation) (n rsn dos key : string)
  : Prop :=
  forall r, In r out -> name r = n ->
    reason r = rsn /\ dosage r = Some dos /\
    PyDict.get (CITATIONS module_globals) key = Some (sources r).

(** The countries of [COUNTRY_DEFICIENCY], as the specification lists
    them. *)
Definition vitamin_d_countries : list string :=
  ["uk"; "ireland"; "canada"; "sweden"; "norway"].

(** The rule named [n] fires exactly under [cond], and its record has
    the given reason, dosage and citations. *)
Definition fires_exactly_when (out : list Recommendation) (cond : Prop)
    (n rsn dos key : string) : Prop :=
  (cond <-> recommends out n) /\ carries out n rsn dos key.

(** [t] is an ASCII string that differs from [s] in letter case at most. *)
Definition case_variant (s t : string) : Prop :=
  PyStr.isascii t = true /\
  PyStr.map_bytes PyStr.lower_byte t = PyStr.map_bytes PyStr.lower_byte s.

(** No string occurs twice in [l]. *)
Fixpoint distinctb (l : list string) : bool :=
  match l with
  | [] => true
  | x :: rest => negb (existsb (String.eqb x) rest) && distinctb rest
  end.

(** A computation that hands back the globals it was given. *)
Definition read_only {A} (m : Py A) : Prop := forall g, snd (m g) = g.

(** [l1] is [l2] with some elements left out, the others in place. *)
Inductive subseq {A : Type} : list A -> list A -> Prop :=
| subseq_nil : subseq [] []
| subseq_skip x l1 l2 : subseq l1 l2 -> subseq l1 (x :: l2)
| subseq_cons x l1 l2 : subseq l1 l2 -> subseq (x :: l1) (x :: l2).

(** The names the eight rules give, in the order of the rules. *)
Definition rule_names : list string :=
  [ "Magnesium Glycinate"; "Creatine Monohydrate"; "Multi‑strain Probiotic";
    "Ashwagandha (KSM‑66/Sensoril)"; "Omega‑3 (EPA/DHA)"; "Quercetin";
    "Zinc Picolinate"; "Vitamin D3 (cholecalciferol)" ].

(** The keys under which the rules look in [CITATIONS]. *)
Definition citation_keys : list string :=
  [ "magnesium"; "creatine"; "probiotic"; "ashwagandha"; "omega_3";
    "quercetin"; "zinc"; "vitamin_d" ].

(** The two surveys have the same eight ratings that the rules read. *)
Definition same_used_ratings (d1 d2 : SurveyResponse) : Prop :=
  energy d1 = energy d2 /\ gut_health d1 = gut_health d2 /\
  muscle_gain d1 = muscle_gain d2 /\ stress d1 = stress d2 /\
  sleep d1 = sleep d2 /\ allergies d1 = allergies d2 /\
  skin d1 = skin d2 /\ digestion d1 = digestion d2.

(** No rating that the rules read is lower in [d2] than in [d1]. *)
Definition used_ratings_le (d1 d2 : SurveyResponse) : Prop :=
  energy d1 <= energy d2 /\ gut_health d1 <= gut_health d2 /\
  muscle_gain d1 <= muscle_gain d2 /\ stress d1 <= stress d2 /\
  sleep d1 <= sleep d2 /\ allergies d1 <= allergies d2 /\
  skin d1 <= skin d2 /\ digestion d1 <= digestion d2.

(** No rule on the ratings fires. *)
Definition below_all_thresholds (d : SurveyResponse) : Prop :=
  energy d < 4 /\ muscle_gain d < 3 /\ gut_health d < 3 /\ digestion d < 3 /\
  stress d < 3 /\ sleep d < 3 /\ skin d < 3 /\ allergies d < 3.

(** Every key of the rules is present in the [CITATIONS] of [g]. *)
Definition citations_complete (g : Globals) : Prop :=
  forall k, In k citation_keys -> PyDict.get (CITATIONS g) k <> None.

(** The key a rule looks up, if the rule fires. *)
Definition lookup_of (fires : bool) (key : string) : list string :=
  if fires then [key] else [].

(** [CITATIONS] of [g] has no entry under [k]. *)
Definition missing (g : Globals) (k : string) : bool :=
  match PyDict.get (CITATIONS g) k with
  | Some _ => false
  | None => true
  end.

Section FiringKeys.

Context `{PyStr.UnicodeTables}.

(** The keys under which the rules that fire for [d] look in
    [CITATIONS], in the order of the rules. *)
Definition firing_keys (g : Globals) (d : SurveyResponse) : list string :=
  lookup_of (energy d >=? 4) "magnesium"
  ++ lookup_of (muscle_gain d >=? 3) "creatine"
  ++ lookup_of ((gut_health d >=? 3) || (digestion d >=? 3)) "probiotic"
  ++ lookup_of ((stress d >=? 3) || (sleep d >=? 3)) "ashwagandha"
  ++ lookup_of ((skin d >=? 3) || (allergies d >=? 3)) "omega_3"
  ++ lookup_of (allergies d >=? 4) "quercetin"
  ++ lookup_of (skin d >=? 4) "zinc"
  ++ lookup_of
       (eq_str
          (PyDict.get (COUNTRY_DEFICIENCY g) (PyStr.lower (country d)))
          "vitamin_d")
       "vitamin_d".

(** The first of them that [CITATIONS] lacks. *)
Definition first_missing_key (g : Globals) (d : SurveyResponse)
  : option string :=
  find (missing g) (firing_keys g d).

End FiringKeys.

(** Run on [g], [m] raises [KeyError] for the first key of [ks] that
    [CITATIONS] lacks, and returns if there is none; [g] is handed back
    either way. *)
Definition stops_at_first_missing {A} (m : Py A) (g : Globals)
    (ks : list string) : Prop :=
  match find (missing g) ks with
  | Some k => m g = (Raised (KeyError k), g)
  | None => exists a, m g = (Ok a, g)
  end.

(** The record is not the one of the regional rule. *)
Definition not_vitamin_d (r : Recommendation) : bool :=
  negb (name r =? "Vitamin D3 (cholecalciferol)")%string.

(** In [l], every record named like [r] gives way to [r]. *)
Definition replace_named (r : Recommendation) (l : list Recommendation)
  : list Recommendation :=
  map (fun x => if (name x =? name r)%string then r else x) l.

(** The loop of [unique_by_name], started from any dictionary. *)
Module DedupLoop.

(** One turn: [unique[r.name] = r]. *)
Definition step (unique : PyDict.t Recommendation) (r : Recommendation)
  : PyDict.t Recommendation :=
  PyDict.setitem unique (name r) r.

Definition loop (recs : list Recommendation)
  (unique : PyDict.t Recommendation) : PyDict.t Recommendation :=
  fold_left step recs unique.

End DedupLoop.

(** ** The engine on the module's own tables

    What [build_recommendations] comes to once [CITATIONS] and
    [COUNTRY_DEFICIENCY] are the dictionaries of [module_globals]: the
    records of the rules that fire, in the order of the rules.  Lemma
    [Engine_run.build_recommendations_run] below proves it equal to the
    model above. *)

Module Rules.

Definition cited (key : string) : list string :=
  match PyDict.get (CITATIONS module_globals) key with
  | Some l => l
  | None => []
  end.

Definition rule (n rsn dos key : string) : Recommendation :=
  {| name := n; reason := rsn; dosage := Some dos; sources := cited key |}.

Definition magnesium : Recommendation :=
  rule "Magnesium Glycinate"
    "Supports cellular energy and relaxation; often low in modern diets."
    "200–400 mg in the evening" "magnesium".

Definition creatine : Recommendation :=
  rule "Creatine Monohydrate"
    "Improves high‑intensity performance and lean mass in numerous RCTs."
    "3–5 g daily" "creatine".

Definition probiotic : Recommendation :=
  rule "Multi‑strain Probiotic"
    "Helps balance gut microbiota and supports digestion."
    "10–20B CFU daily" "probiotic".

Definition ashwagandha : Recommendation :=
  rule "Ashwagandha (KSM‑66/Sensoril)"
    "Adaptogen studied for perceived stress and sleep quality."
    "300–600 mg daily" "ashwagandha".

Definition omega_3 : Recommendation :=
  rule "Omega‑3 (EPA/DHA)"
    "Anti‑inflammatory support with benefits for skin barrier and allergies."
    "1–2 g combined EPA/DHA daily" "omega_3".

Definition quercetin : Recommendation :=
  rule "Quercetin"
    "Bioflavonoid studied for mast‑cell stabilization and seasonal allergies."
    "500–1000 mg daily with food" "quercetin".

Definition zinc : Recommendation :=
  rule "Zinc Picolinate"
    "Supports skin integrity and immune function; deficiency correlates with acne."
    "15–30 mg daily with food" "zinc".

Definition vitamin_d : Recommendation :=
  rule "Vitamin D3 (cholecalciferol)"
    "High latitude regions have limited UVB; D3 supports immunity and mood."
    "1000–2000 IU daily" "vitamin_d".

Definition when (b : bool) (r : Recommendation) : list Recommendation :=
  if b then [r] else [].

Definition selected (b1 b2 b3 b4 b5 b6 b7 b8 : bool)
  : list Recommendation :=
  when b1 magnesium ++ when b2 creatine ++ when b3 probiotic
  ++ when b4 ashwagandha ++ when b5 omega_3 ++ when b6 quercetin
  ++ when b7 zinc ++ when b8 vitamin_d.

Section Fired.
Context `{PyStr.UnicodeTables}.

Definition deficient (d : SurveyResponse) : bool :=
  eq_str
    (PyDict.get (COUNTRY_DEFICIENCY module_globals)
       (PyStr.lower (country d)))
    "vitamin_d".

Definition fired (d : SurveyResponse) : list Recommendation :=
  selected
    (energy d >=? 4)
    (muscle_gain d >=? 3)
    ((gut_health d >=? 3) || (digestion d >=? 3))
    ((stress d >=? 3) || (sleep d >=? 3))
    ((skin d >=? 3) || (allergies d >=? 3))
    (allergies d >=? 4)
    (skin d >=? 4)
    (deficient d).

End Fired.

End Rules.

(** ** Sample inputs *)

Definition survey (e g m st sl al au sk di : Z) (c : string)
  : SurveyResponse :=
  {| energy := e; gut_health := g; muscle_gain := m; stress := st;
     sleep := sl; allergies := al; autoimmune := au; skin := sk;
     digestion := di; country := c; email := None |}.

(** Every rating 1. *)
Definition all_ones (d : SurveyResponse) : Prop :=
  energy d = 1 /\ gut_health d = 1 /\ muscle_gain d = 1 /\ stress d = 1 /\
  sleep d = 1 /\ allergies d = 1 /\ autoimmune d = 1 /\ skin d = 1 /\
  digestion d = 1.

(** The two inputs agree on everything but [autoimmune] and [email]. *)
Definition agree_on_used_fields (d1 d2 : SurveyResponse) : Prop :=
  energy d1 = energy d2 /\ gut_health d1 = gut_health d2 /\
  muscle_gain d1 = muscle_gain d2 /\ stress d1 = stress d2 /\
  sleep d1 = sleep d2 /\ allergies d1 = allergies d2 /\
  skin d1 = skin d2 /\ digestion d1 = digestion d2 /\
  country d1 = country d2.

Module Runs.

Definition norway_athlete : SurveyResponse :=
  survey 5 1 3 1 1 1 1 1 1 "Norway".

Definition allergic : SurveyResponse :=
  survey 1 1 1 1 1 4 1 1 1 "France".

Definition uk_all_ones : SurveyResponse :=
  survey 1 1 1 1 1 1 1 1 1 "Uk".

Definition with_autoimmune_and_email : SurveyResponse :=
  {| energy := 5; gut_health := 1; muscle_gain := 3; stress := 1;
     sleep := 1; allergies := 1; autoimmune := 5; skin := 1;
     digestion := 1; country := "Norway"; email := Some "a@b.example" |}.

Definition france_all_ones : SurveyResponse :=
  survey 1 1 1 1 1 1 1 1 1 "France".

Definition all_fives_sweden : SurveyResponse :=
  survey 5 5 5 5 5 5 5 5 5 "Sweden".

Definition norway_upper : SurveyResponse :=
  survey 5 1 3 1 1 1 1 1 1 "NORWAY".

(** Globals whose [CITATIONS] has lost every key. *)
Definition no_citations : Globals :=
  {| CITATIONS := [];
     COUNTRY_DEFICIENCY := COUNTRY_DEFICIENCY module_globals |}.

Definition colliding : list Recommendation :=
  [ {| name := "A"; reason := "first"; dosage := None; sources := [] |};
    {| name := "B"; reason := "second"; dosage := None; sources := [] |};
    {| name := "A"; reason := "third"; dosage := None; sources := [] |} ].

End Runs.

(** ** Dictionaries: assignment, lookup, order of keys *)

Module PyDictFacts.
Import PyDict.

Section Facts.
Context {V : Type}.
Implicit Types (d : t V) (k n : string) (v : V).

Lemma keys_setitem d k v :
  keys (setitem d k v) =
  if existsb (String.eqb k) (keys d) then keys d else keys d ++ [k].
Proof.
  unfold keys.
  induction d as [|[k' v'] d IH]; simpl; [reflexivity|].
  rewrite (String.eqb_sym k k').
  destruct (String.eqb_spec k' k) as [->|Hne]; simpl; [reflexivity|].
  rewrite IH.
  destruct (existsb (String.eqb k) (map fst d)); reflexivity.
Qed.

Lemma get_setitem d k v n :
  get (setitem d k v) n = if (k =? n)%string then Some v else get d n.
Proof.
  induction d as [|[k' v'] d IH]; simpl.
  - reflexivity.
  - destruct (String.eqb_spec k' k) as [->|Hne]; simpl.
    + destruct (k =? n)%string; reflexivity.
    + rewrite IH. destruct (String.eqb_spec k' n) as [->|Hn]; [|reflexivity].
      destruct (String.eqb_spec k n) as [->|_]; [congruence|reflexivity].
Qed.

Lemma existsb_eqb_In k (l : list string) :
  existsb (String.eqb k) l = true <-> In k l.
Proof.
  rewrite existsb_exists. split.
  - intros (x & Hx & E). apply String.eqb_eq in E. now subst.
  - intros Hk. exists k. split; [assumption | apply String.eqb_refl].
Qed.

Lemma setitem_fresh d k v :
  ~ In k (keys d) -> setitem d k v = d ++ [(k, v)].
Proof.
  induction d as [|[k' v'] d IH]; simpl; intros Hk; [reflexivity|].
  destruct (String.eqb_spec k' k) as [->|Hne]; [tauto|].
  rewrite IH; [reflexivity | tauto].
Qed.

Lemma NoDup_keys_setitem d k v :
  NoDup (keys d) -> NoDup (keys (setitem d k v)).
Proof.
  intros Hd. rewrite keys_setitem.
  destruct (existsb (String.eqb k) (keys d)) eqn:E; [assumption|].
  apply NoDup_app; [assumption | repeat constructor; simpl; tauto |].
  intros x Hx [<-|[]].
  apply existsb_eqb_In in Hx. congruence.
Qed.

Lemma get_absent d k : ~ In k (keys d) -> get d k = None.
Proof.
  induction d as [|[k' v'] d IH]; simpl; intros Hk; [reflexivity|].
  destruct (String.eqb_spec k' k) as [->|_]; [tauto|].
  apply IH. tauto.
Qed.

(** With distinct keys, the values are the lookups of the keys, in
    order. *)
Lemma values_by_keys d :
  NoDup (keys d) -> map Some (values d) = map (get d) (keys d).
Proof.
  induction d as [|[k v] d IH]; simpl; intros Hd; [reflexivity|].
  apply NoDup_cons_iff in Hd as [Hk Hd].
  rewrite String.eqb_refl. f_equal.
  rewrite (IH Hd). apply map_ext_in.
  intros k' Hk'.
  destruct (String.eqb_spec k k') as [->|_]; [contradiction | reflexivity].
Qed.

End Facts.
End PyDictFacts.

(** ** The de-duplication loop *)

Module Dedup.
Import PyDict PyDictFacts DedupLoop.

Lemma unique_by_name_loop recs : unique_by_name recs = values (loop recs []).
Proof. reflexivity. Qed.

(** Keys are only ever added at the end, and only when new. *)
Lemma keys_loop recs : forall unique,
  keys (loop recs unique) =
  keys unique ++ first_occurrences_from (keys unique) (map name recs).
Proof.
  induction recs as [|r recs IH]; intros unique; simpl.
  - now rewrite app_nil_r.
  - rewrite IH. unfold step at 1 2. rewrite keys_setitem.
    destruct (existsb (String.eqb (name r)) (keys unique)).
    + reflexivity.
    + now rewrite <- app_assoc.
Qed.

Lemma NoDup_keys_loop recs : forall unique,
  NoDup (keys unique) -> NoDup (keys (loop recs unique)).
Proof.
  induction recs as [|r recs IH]; intros unique Hu; simpl; [assumption|].
  apply IH. now apply NoDup_keys_setitem.
Qed.

Lemma find_snoc {A} (p : A -> bool) l x :
  find p (l ++ [x]) =
  match find p l with
  | Some y => Some y
  | None => if p x then Some x else None
  end.
Proof.
  induction l as [|a l IH]; simpl; [reflexivity|].
  destruct (p a); [reflexivity | assumption].
Qed.

(** Under a key sits what was assigned to it last. *)
Lemma get_loop recs n : forall unique,
  get (loop recs unique) n =
  match last_named n recs with
  | Some r => Some r
  | None => get unique n
  end.
Proof.
  unfold last_named.
  induction recs as [|r recs IH]; intros unique; simpl; [reflexivity|].
  rewrite IH, find_snoc.
  destruct (find _ (rev recs)); [reflexivity|].
  unfold step. rewrite get_setitem.
  destruct (name r =? n)%string; reflexivity.
Qed.

(** Every item is filed under its own name. *)
Lemma named_loop recs : forall unique,
  Forall (fun kv => name (snd kv) = fst kv) unique ->
  Forall (fun kv => name (snd kv) = fst kv) (loop recs unique).
Proof.
  induction recs as [|r recs IH]; intros unique Hu; simpl; [assumption|].
  apply IH. unfold step. clear IH.
  induction unique as [|[k v] unique IHu]; simpl.
  - repeat constructor.
  - inversion Hu as [|? ? Hkv Hrest]; subst. simpl in Hkv.
    destruct (String.eqb_spec k (name r)) as [->|_]; constructor; auto.
Qed.

Lemma names_are_keys recs :
  map name (unique_by_name recs) = keys (loop recs []).
Proof.
  rewrite unique_by_name_loop. unfold values, keys. rewrite map_map.
  apply map_ext_in. intros kv Hkv.
  pose proof (named_loop recs [] (Forall_nil _)) as Hall.
  rewrite Forall_forall in Hall. now apply Hall.
Qed.

Lemma NoDup_names recs : NoDup (map name (unique_by_name recs)).
Proof.
  rewrite names_are_keys. apply NoDup_keys_loop. constructor.
Qed.

(** Records with distinct names pass through unchanged. *)
Lemma loop_distinct recs : forall unique,
  NoDup (keys unique ++ map name recs) ->
  loop recs unique = unique ++ map (fun r => (name r, r)) recs.
Proof.
  induction recs as [|r recs IH]; intros unique Hnd; simpl.
  - now rewrite app_nil_r.
  - assert (Hfresh : ~ In (name r) (keys unique)).
    { intros Hin. apply NoDup_remove_2 in Hnd. apply Hnd.
      apply in_or_app. now left. }
    unfold step at 1. rewrite (setitem_fresh _ _ _ Hfresh).
    rewrite IH.
    + now rewrite <- app_assoc.
    + unfold keys in *. rewrite map_app. simpl. now rewrite <- app_assoc.
Qed.

Lemma unique_by_name_distinct recs :
  NoDup (map name recs) -> unique_by_name recs = recs.
Proof.
  intros Hnd. rewrite unique_by_name_loop, loop_distinct by assumption.
  unfold values. simpl. rewrite map_map. simpl. apply map_id.
Qed.

End Dedup.

(** ** The monad: read-only computations *)

Module PyFacts.

Lemma read_only_ret {A} (a : A) : read_only (ret a).
Proof. intros g. reflexivity. Qed.

Lemma read_only_bind {A B} (m : Py A) (k : A -> Py B) :
  read_only m -> (forall a, read_only (k a)) -> read_only (bind m k).
Proof.
  intros Hm Hk g. unfold bind.
  specialize (Hm g). destruct (m g) as [[a|e] g']; simpl in Hm; subst g'.
  - apply Hk.
  - reflexivity.
Qed.

Lemma read_only_getitem {V} (table : Globals -> PyDict.t V) key :
  read_only (global_getitem table key).
Proof. intros g. reflexivity. Qed.

Lemma read_only_get {V} (table : Globals -> PyDict.t V) key :
  read_only (global_get table key).
Proof. intros g. reflexivity. Qed.

Lemma read_only_if {A} (b : bool) (m1 m2 : Py A) :
  read_only m1 -> read_only m2 -> read_only (if b then m1 else m2).
Proof. destruct b; auto. Qed.

(** One rule of the engine, run where [CITATIONS] has the key. *)
Lemma run_rule {B} (b : bool) key (mk : list string -> Recommendation)
    recs (k : list Recommendation -> Py B) g src :
  PyDict.get (CITATIONS g) key = Some src ->
  bind (if b
        then bind (global_getitem CITATIONS key)
               (fun s => ret (recs ++ [mk s]))
        else ret recs) k g
  = k (recs ++ Rules.when b (mk src)) g.
Proof.
  intros Hkey. unfold bind, global_getitem, PyDict.getitem, ret.
  destruct b; simpl.
  - rewrite Hkey. reflexivity.
  - rewrite app_nil_r. reflexivity.
Qed.

Lemma run_get {V B} (table : Globals -> PyDict.t V) key
    (k : option V -> Py B) g :
  bind (global_get table key) k g = k (PyDict.get (table g) key) g.
Proof. reflexivity. Qed.

End PyFacts.

Create HintDb read_only.

#[local] Hint Resolve PyFacts.read_only_ret PyFacts.read_only_bind
  PyFacts.read_only_getitem PyFacts.read_only_get PyFacts.read_only_if
  : read_only.

Module Engine_run.
Import Rules.

Lemma distinctb_NoDup l : distinctb l = true -> NoDup l.
Proof.
  induction l as [|x l IH]; simpl; intros Hl; constructor.
  - apply andb_prop in Hl as [Hx _]. intros Hin.
    apply PyDictFacts.existsb_eqb_In in Hin.
    rewrite Hin in Hx. discriminate.
  - apply IH. now apply andb_prop in Hl.
Qed.

Lemma selected_unique b1 b2 b3 b4 b5 b6 b7 b8 :
  unique_by_name (selected b1 b2 b3 b4 b5 b6 b7 b8)
  = selected b1 b2 b3 b4 b5 b6 b7 b8.
Proof.
  apply Dedup.unique_by_name_distinct, distinctb_NoDup.
  destruct b1, b2, b3, b4, b5, b6, b7, b8; vm_compute; reflexivity.
Qed.

Section Run.
Context `{PyStr.UnicodeTables}.

Lemma build_recommendations_read_only d :
  read_only (build_recommendations d).
Proof.
  unfold build_recommendations.
  auto 30 with read_only.
Qed.

(** On the module's tables no lookup fails, and the engine returns the
    de-duplicated list of the fired rules. *)
Lemma build_recommendations_dedup d :
  build_recommendations d module_globals
  = (Ok (unique_by_name (fired d)), module_globals).
Proof.
  unfold build_recommendations.
  do 7 (etransitivity; [apply PyFacts.run_rule; reflexivity | cbv beta]).
  rewrite PyFacts.run_get.
  etransitivity; [apply PyFacts.run_rule; reflexivity | cbv beta].
  unfold ret. f_equal. f_equal.
  now rewrite app_nil_l, <- !app_assoc.
Qed.

Lemma build_recommendations_run d :
  build_recommendations d module_globals = (Ok (fired d), module_globals).
Proof.
  rewrite build_recommendations_dedup. unfold fired.
  now rewrite selected_unique.
Qed.

Lemma recommendations_for_fired d : recommendations_for d = Ok (fired d).
Proof.
  unfold recommendations_for. now rewrite build_recommendations_run.
Qed.

End Run.
End Engine_run.

(** ** Which rules fire *)

Module Fired.
Import Rules.

Lemma in_when r b x : In r (when b x) <-> b = true /\ r = x.
Proof.
  destruct b; simpl; split; try tauto.
  - intros [<-|[]]. now split.
  - intros [_ ->]. now left.
  - intros [E _]. discriminate.
Qed.

Lemma geb_ge x n : (x >=? n) = true <-> x >= n.
Proof. rewrite Z.geb_le. lia. Qed.

Lemma either_ge x y n :
  (x >=? n) || (y >=? n) = true <-> x >= n \/ y >= n.
Proof. now rewrite orb_true_iff, !geb_ge. Qed.

Section Fired.
Context `{PyStr.UnicodeTables}.

Lemma deficient_iff d :
  deficient d = true <-> In (PyStr.lower (country d)) vitamin_d_countries.
Proof.
  unfold deficient. generalize (PyStr.lower (country d)) as c. intros c.
  unfold vitamin_d_countries.
  cbv [COUNTRY_DEFICIENCY module_globals PyDict.get].
  repeat match goal with
         | |- context [String.eqb ?a c] =>
             destruct (String.eqb_spec a c) as [<-|?]
         end; simpl; intuition congruence.
Qed.

Lemma in_fired d r :
  In r (fired d) <->
    (energy d >= 4 /\ r = magnesium) \/
    (muscle_gain d >= 3 /\ r = creatine) \/
    ((gut_health d >= 3 \/ digestion d >= 3) /\ r = probiotic) \/
    ((stress d >= 3 \/ sleep d >= 3) /\ r = ashwagandha) \/
    ((skin d >= 3 \/ allergies d >= 3) /\ r = omega_3) \/
    (allergies d >= 4 /\ r = quercetin) \/
    (skin d >= 4 /\ r = zinc) \/
    (In (PyStr.lower (country d)) vitamin_d_countries /\ r = vitamin_d).
Proof.
  unfold fired, selected.
  rewrite !in_app_iff, !in_when, !geb_ge, !either_ge, deficient_iff.
  reflexivity.
Qed.

End Fired.

(** From [In r (fired d)] to the rule that produced [r]; the other seven
    are ruled out by their names. *)
Ltac which_rule Hin Hname :=
  apply in_fired in Hin;
  repeat (destruct Hin as [[? ->]|Hin]); [..|destruct Hin as [? ->]];
  try discriminate Hname.

Section Recommends.
Context `{PyStr.UnicodeTables}.

Lemma recommends_rule d (cond : Prop) r0 :
  (forall r, name r = name r0 -> In r (fired d) -> cond /\ r = r0) ->
  (cond -> In r0 (fired d)) ->
  (cond <-> recommends (fired d) (name r0)) /\
  (forall r, In r (fired d) -> name r = name r0 -> r = r0).
Proof.
  intros Hout Hin. split; [split|].
  - intros Hc. exists r0. auto.
  - intros (r & Hr & Hn). now destruct (Hout r Hn Hr).
  - intros r Hr Hn. now destruct (Hout r Hn Hr).
Qed.

Lemma magnesium_rule d :
  (energy d >= 4 <-> recommends (fired d) (name magnesium)) /\
  (forall r, In r (fired d) -> name r = name magnesium -> r = magnesium).
Proof.
  apply recommends_rule.
  - intros r Hn Hin. which_rule Hin Hn. auto.
  - intros Hc. apply in_fired. tauto.
Qed.

Lemma creatine_rule d :
  (muscle_gain d >= 3 <-> recommends (fired d) (name creatine)) /\
  (forall r, In r (fired d) -> name r = name creatine -> r = creatine).
Proof.
  apply recommends_rule.
  - intros r Hn Hin. which_rule Hin Hn. auto.
  - intros Hc. apply in_fired. tauto.
Qed.

Lemma probiotic_rule d :
  (gut_health d >= 3 \/ digestion d >= 3
   <-> recommends (fired d) (name probiotic)) /\
  (forall r, In r (fired d) -> name r = name probiotic -> r = probiotic).
Proof.
  apply recommends_rule.
  - intros r Hn Hin. which_rule Hin Hn. auto.
  - intros Hc. apply in_fired. tauto.
Qed.

Lemma ashwagandha_rule d :
  (stress d >= 3 \/ sleep d >= 3
   <-> recommends (fired d) (name ashwagandha)) /\
  (forall r, In r (fired d) -> name r = name ashwagandha ->
             r = ashwagandha).
Proof.
  apply recommends_rule.
  - intros r Hn Hin. which_rule Hin Hn. auto.
  - intros Hc. apply in_fired. tauto.
Qed.

Lemma omega_3_rule d :
  (skin d >= 3 \/ allergies d >= 3
   <-> recommends (fired d) (name omega_3)) /\
  (forall r, In r (fired d) -> name r = name omega_3 -> r = omega_3).
Proof.
  apply recommends_rule.
  - intros r Hn Hin. which_rule Hin Hn. auto.
  - intros Hc. apply in_fired. tauto.
Qed.

Lemma quercetin_rule d :
  (allergies d >= 4 <-> recommends (fired d) (name quercetin)) /\
  (forall r, In r (fired d) -> name r = name quercetin -> r = quercetin).
Proof.
  apply recommends_rule.
  - intros r Hn Hin. which_rule Hin Hn. auto.
  - intros Hc. apply in_fired. tauto.
Qed.

Lemma zinc_rule d :
  (skin d >= 4 <-> recommends (fired d) (name zinc)) /\
  (forall r, In r (fired d) -> name r = name zinc -> r = zinc).
Proof.
  apply recommends_rule.
  - intros r Hn Hin. which_rule Hin Hn. auto.
  - intros Hc. apply in_fired. tauto.
Qed.

Lemma vitamin_d_rule d :
  (In (PyStr.lower (country d)) vitamin_d_countries
   <-> recommends (fired d) (name vitamin_d)) /\
  (forall r, In r (fired d) -> name r = name vitamin_d -> r = vitamin_d).
Proof.
  apply recommends_rule.
  - intros r Hn Hin. which_rule Hin Hn. auto.
  - intros Hc. apply in_fired. tauto.
Qed.

(** A rule's record carries the fields the rule writes. *)
Lemma carries_rule d n rsn dos key :
  (forall r, In r (fired d) -> name r = n -> r = rule n rsn dos key) ->
  PyDict.get (CITATIONS module_globals) key = Some (cited key) ->
  carries (fired d) n rsn dos key.
Proof.
  intros Hrule Hkey r Hin Hn. rewrite (Hrule r Hin Hn). now repeat split.
Qed.

End Recommends.
End Fired.

(** * Properties of the engine *)

Section Properties.
Context `{PyStr.UnicodeTables}.

Import Rules Fired Engine_run.

(** C1.  On a validated survey the engine returns a list in which each
    of the eight rules is present exactly when its predicate holds:
    Magnesium Glycinate iff energy >= 4, Creatine Monohydrate iff
    muscle_gain >= 3, the probiotic iff gut_health >= 3 or digestion >= 3,
    Ashwagandha iff stress >= 3 or sleep >= 3, Omega-3 iff skin >= 3 or
    allergies >= 3, Quercetin iff allergies >= 4, Zinc Picolinate iff
    skin >= 4, Vitamin D3 iff the lower-cased country is one of uk,
    ireland, canada, sweden, norway.  Each record present has the fixed
    reason and the dosage of its rule and the citations that [CITATIONS]
    holds under the rule's key.  Names and dosages are spelled out below
    in full, as main.py has them. *)
Theorem build_recommendations_rules (d : SurveyResponse) :
  validated d = true ->
  exists out, recommendations_for d = Ok out /\
    fires_exactly_when out (energy d >= 4)
      "Magnesium Glycinate"
      "Supports cellular energy and relaxation; often low in modern diets."
      "200–400 mg in the evening" "magnesium" /\
    fires_exactly_when out (muscle_gain d >= 3)
      "Creatine Monohydrate"
      "Improves high‑intensity performance and lean mass in numerous RCTs."
      "3–5 g daily" "creatine" /\
    fires_exactly_when out (gut_health d >= 3 \/ digestion d >= 3)
      "Multi‑strain Probiotic"
      "Helps balance gut microbiota and supports digestion."
      "10–20B CFU daily" "probiotic" /\
    fires_exactly_when out (stress d >= 3 \/ sleep d >= 3)
      "Ashwagandha (KSM‑66/Sensoril)"
      "Adaptogen studied for perceived stress and sleep quality."
      "300–600 mg daily" "ashwagandha" /\
    fires_exactly_when out (skin d >= 3 \/ allergies d >= 3)
      "Omega‑3 (EPA/DHA)"
      "Anti‑inflammatory support with benefits for skin barrier and allergies."
      "1–2 g combined EPA/DHA daily" "omega_3" /\
    fires_exactly_when out (allergies d >= 4)
      "Quercetin"
      "Bioflavonoid studied for mast‑cell stabilization and seasonal allergies."
      "500–1000 mg daily with food" "quercetin" /\
    fires_exactly_when out (skin d >= 4)
      "Zinc Picolinate"
      "Supports skin integrity and immune function; deficiency correlates with acne."
      "15–30 mg daily with food" "zinc" /\
    fires_exactly_when out
      (In (PyStr.lower (country d)) vitamin_d_countries)
      "Vitamin D3 (cholecalciferol)"
      "High latitude regions have limited UVB; D3 supports immunity and mood."
      "1000–2000 IU daily" "vitamin_d".
Proof.
  intros _. exists (fired d). split; [apply recommendations_for_fired|].
  unfold fires_exactly_when.
  repeat match goal with |- _ /\ _ => split end.
  all: try (apply carries_rule; [|reflexivity]).
  all: first [ apply magnesium_rule | apply creatine_rule
             | apply probiotic_rule | apply ashwagandha_rule
             | apply omega_3_rule | apply quercetin_rule
             | apply zinc_rule | apply vitamin_d_rule ].
Qed.

(** C2.  On a validated survey the engine returns a list in which no two
    recommendations have the same name. *)
Theorem build_recommendations_distinct_names (d : SurveyResponse) :
  validated d = true ->
  exists out, recommendations_for d = Ok out /\ NoDup (map name out).
Proof.
  intros _. exists (unique_by_name (fired d)). split.
  - unfold recommendations_for.
    now rewrite Engine_run.build_recommendations_dedup.
  - apply Dedup.NoDup_names.
Qed.

(** C7.  On a survey whose nine ratings lie in 1..5, with any country,
    the engine returns a list: no lookup raises, and the globals are left
    as they were. *)
Theorem build_recommendations_total (d : SurveyResponse) :
  validated d = true ->
  exists out,
    build_recommendations d module_globals = (Ok out, module_globals).
Proof.
  intros _. exists (fired d). apply Engine_run.build_recommendations_run.
Qed.

(** C3.  Whatever records have been accumulated, the de-duplication step
    returns one record per distinct name, the names standing in the
    order of their first occurrence, and the record kept for a name is
    the one that was appended last under that name. *)
Theorem unique_by_name_first_place_last_value
    (recs : list Recommendation) :
  map name (unique_by_name recs) = first_occurrences (map name recs) /\
  map Some (unique_by_name recs)
  = map (fun n => last_named n recs) (first_occurrences (map name recs)).
Proof.
  assert (Hkeys : PyDict.keys (DedupLoop.loop recs [])
                  = first_occurrences (map name recs)).
  { now rewrite Dedup.keys_loop. }
  split.
  - now rewrite Dedup.names_are_keys.
  - rewrite Dedup.unique_by_name_loop, PyDictFacts.values_by_keys.
    + rewrite Hkeys. apply map_ext. intros n.
      rewrite Dedup.get_loop. simpl. now destruct (last_named n recs).
    + apply Dedup.NoDup_keys_loop. constructor.
Qed.

(** C4.  With all nine ratings 1: a country that is "UK" in any letter
    case gets Vitamin D3, "France" does not, and in general Vitamin D3
    is recommended exactly when the lower-cased country is one of uk,
    ireland, canada, sweden, norway. *)
Theorem vitamin_d_by_country (d : SurveyResponse) :
  validated d = true -> all_ones d ->
  exists out, recommendations_for d = Ok out /\
    (case_variant "UK" (country d) ->
     recommends out "Vitamin D3 (cholecalciferol)") /\
    (country d = "France" ->
     ~ recommends out "Vitamin D3 (cholecalciferol)") /\
    (recommends out "Vitamin D3 (cholecalciferol)" <->
     In (PyStr.lower (country d)) vitamin_d_countries).
Proof.
  intros _ _. exists (fired d).
  split; [apply recommendations_for_fired|].
  pose proof (proj1 (vitamin_d_rule d)) as Hd. simpl in Hd.
  split; [|split].
  - intros [Hascii Hlow]. apply Hd.
    unfold PyStr.lower. rewrite Hascii, Hlow. simpl. tauto.
  - intros Hc Hrec. apply Hd in Hrec. rewrite Hc in Hrec.
    vm_compute in Hrec. intuition discriminate.
  - symmetry. exact Hd.
Qed.

(** C5.  For skin = 5, allergies = 5, every other rating 1 and country
    "France", the engine returns Omega-3, Quercetin and Zinc Picolinate
    and nothing else. *)
Theorem skin_and_allergies_five (e : option string) :
  exists out,
    recommendations_for
      {| energy := 1; gut_health := 1; muscle_gain := 1; stress := 1;
         sleep := 1; allergies := 5; autoimmune := 1; skin := 5;
         digestion := 1; country := "France"; email := e |} = Ok out /\
    map name out = ["Omega‑3 (EPA/DHA)"; "Quercetin"; "Zinc Picolinate"].
Proof.
  eexists. split; [apply recommendations_for_fired|].
  vm_compute. reflexivity.
Qed.

(** C6.  A call of the engine leaves the module's globals as it found
    them, and a second call on an equal input, made after the first,
    has the same outcome: the engine is deterministic and has no side
    effect. *)
Theorem build_recommendations_deterministic
    (g : Globals) (d1 d2 : SurveyResponse) :
  d1 = d2 ->
  snd (build_recommendations d1 g) = g /\
  build_recommendations d2 (snd (build_recommendations d1 g))
  = build_recommendations d1 g.
Proof.
  intros <-.
  pose proof (build_recommendations_read_only d1 g) as Hg.
  split; [exact Hg | now rewrite Hg].
Qed.

(** C9.  Two validated surveys that agree on the eight ratings the rules
    read and on the country, and differ in [autoimmune] or [email] only,
    get the same outcome, whatever the globals. *)
Theorem unused_fields_do_not_interfere
    (g : Globals) (d1 d2 : SurveyResponse) :
  validated d1 = true -> validated d2 = true ->
  agree_on_used_fields d1 d2 ->
  build_recommendations d1 g = build_recommendations d2 g.
Proof.
  intros _ _ (E1 & E2 & E3 & E4 & E5 & E6 & E7 & E8 & E9).
  unfold build_recommendations.
  now rewrite E1, E2, E3, E4, E5, E6, E7, E8, E9.
Qed.

(** C10.  On a validated survey, an output that holds Quercetin or Zinc
    Picolinate holds Omega-3 as well. *)
Theorem quercetin_or_zinc_brings_omega_3 (d : SurveyResponse) :
  validated d = true ->
  exists out, recommendations_for d = Ok out /\
    (recommends out "Quercetin" \/ recommends out "Zinc Picolinate" ->
     recommends out "Omega‑3 (EPA/DHA)").
Proof.
  intros _. exists (fired d).
  split; [apply recommendations_for_fired|].
  intros [Hq|Hz]; apply (proj1 (omega_3_rule d)).
  - apply (proj1 (quercetin_rule d)) in Hq. lia.
  - apply (proj1 (zinc_rule d)) in Hz. lia.
Qed.

End Properties.

(** C8.  The acknowledgement handler answers with the status "queued",
    the e-mail address it was given and the number of recommendations it
    was given; it does nothing else, the globals are as before. *)
Theorem send_email_acknowledges (payload : EmailPayload) (g : Globals) :
  exists resp, send_email payload g = (Ok resp, g) /\
    PyDict.keys resp = ["status"; "email"; "count"] /\
    PyDict.get resp "status" = Some (JStr "queued") /\
    PyDict.get resp "email" = Some (JStr (payload_email payload)) /\
    PyDict.get resp "count"
    = Some (JInt (Z.of_nat (length (payload_recommendations payload)))).
Proof.
  eexists. split; [reflexivity|]. repeat split.
Qed.

(** * Concrete runs *)

Import Runs.

Example norway_athlete_run :
  option_map (map name)
    match @recommendations_for PyStr.ascii_only norway_athlete with
    | Ok out => Some out
    | Raised _ => None
    end
  = Some ["Magnesium Glycinate"; "Creatine Monohydrate";
          "Vitamin D3 (cholecalciferol)"].
Proof. vm_compute. reflexivity. Qed.

(** A name assigned twice keeps its first place and its last record. *)
Example colliding_run :
  map (fun r => (name r, reason r)) (unique_by_name colliding)
  = [("A", "third"); ("B", "second")].
Proof. reflexivity. Qed.

(** The letter-case variants of "UK" are the four one expects. *)
Lemma lower_byte_u c :
  PyStr.lower_byte c = "u"%char -> c = "u"%char \/ c = "U"%char.
Proof.
  destruct c as [[] [] [] [] [] [] [] []]; vm_compute; intros E;
    first [discriminate E | now left | now right].
Qed.

Lemma lower_byte_k c :
  PyStr.lower_byte c = "k"%char -> c = "k"%char \/ c = "K"%char.
Proof.
  destruct c as [[] [] [] [] [] [] [] []]; vm_compute; intros E;
    first [discriminate E | now left | now right].
Qed.

Lemma case_variants_of_UK c :
  case_variant "UK" c <-> In c ["UK"; "Uk"; "uK"; "uk"].
Proof.
  split.
  - intros [_ Hlow].
    change (PyStr.map_bytes PyStr.lower_byte "UK") with "uk" in Hlow.
    destruct c as [|a [|b [|? ?]]]; cbn [PyStr.map_bytes] in Hlow;
      try discriminate Hlow.
    injection Hlow as Ha Hb.
    destruct (lower_byte_u a Ha) as [-> | ->],
             (lower_byte_k b Hb) as [-> | ->]; simpl; tauto.
  - simpl. intros [<-|[<-|[<-|[<-|[]]]]]; split; reflexivity.
Qed.

(** [first_occurrences] keeps every element, once. *)
Lemma in_first_occurrences_from l : forall seen x,
  In x (first_occurrences_from seen l) <-> In x l /\ ~ In x seen.
Proof.
  induction l as [|y l IH]; intros seen x; simpl; [tauto|].
  destruct (existsb (String.eqb y) seen) eqn:E.
  - apply PyDictFacts.existsb_eqb_In in E. rewrite IH.
    split; [tauto|]. intros [[<-|Hx] Hs]; tauto.
  - assert (Hy : ~ In y seen).
    { intros Hin. apply PyDictFacts.existsb_eqb_In in Hin. congruence. }
    simpl. rewrite IH, in_app_iff. simpl.
    destruct (string_dec y x) as [<-|Hne]; tauto.
Qed.

Lemma NoDup_first_occurrences_from l : forall seen,
  NoDup (first_occurrences_from seen l).
Proof.
  induction l as [|y l IH]; intros seen; simpl; [constructor|].
  destruct (existsb (String.eqb y) seen); [apply IH|].
  constructor; [|apply IH].
  rewrite in_first_occurrences_from, in_app_iff. simpl. tauto.
Qed.

Lemma first_occurrences_spec l :
  NoDup (first_occurrences l) /\
  forall x, In x (first_occurrences l) <-> In x l.
Proof.
  split; [apply NoDup_first_occurrences_from|].
  intros x. unfold first_occurrences.
  rewrite in_first_occurrences_from. simpl. tauto.
Qed.

(** ** The theorems at concrete inputs *)

Lemma build_recommendations_rules_witness :
  validated norway_athlete = true /\
  exists out,
    @recommendations_for PyStr.ascii_only norway_athlete = Ok out /\
    recommends out "Magnesium Glycinate" /\
    ~ recommends out "Quercetin".
Proof.
  split; [reflexivity|].
  destruct (@build_recommendations_rules PyStr.ascii_only norway_athlete
              eq_refl)
    as (out & Hrun & [Hm _] & _ & _ & _ & _ & [Hq _] & _).
  exists out. split; [exact Hrun|]. split.
  - apply Hm. simpl. lia.
  - intros Hr. apply Hq in Hr. simpl in Hr. lia.
Defined.

Lemma build_recommendations_distinct_names_witness :
  validated norway_athlete = true /\
  exists out,
    @recommendations_for PyStr.ascii_only norway_athlete = Ok out /\
    NoDup (map name out).
Proof.
  split; [reflexivity|].
  exact (@build_recommendations_distinct_names PyStr.ascii_only
           norway_athlete eq_refl).
Defined.

Lemma all_ones_uk : all_ones uk_all_ones.
Proof. repeat split. Qed.

Lemma vitamin_d_by_country_witness :
  validated uk_all_ones = true /\ all_ones uk_all_ones /\
  case_variant "UK" (country uk_all_ones) /\
  exists out,
    @recommendations_for PyStr.ascii_only uk_all_ones = Ok out /\
    recommends out "Vitamin D3 (cholecalciferol)".
Proof.
  split; [reflexivity|]. split; [exact all_ones_uk|].
  split; [split; reflexivity|].
  destruct (@vitamin_d_by_country PyStr.ascii_only uk_all_ones
              eq_refl all_ones_uk)
    as (out & Hrun & Huk & _).
  exists out. split; [exact Hrun|].
  apply Huk. split; reflexivity.
Defined.

Lemma build_recommendations_deterministic_witness :
  norway_athlete = norway_athlete /\
  snd (@build_recommendations PyStr.ascii_only norway_athlete module_globals)
  = module_globals /\
  @build_recommendations PyStr.ascii_only norway_athlete
    (snd (@build_recommendations PyStr.ascii_only norway_athlete
            module_globals))
  = @build_recommendations PyStr.ascii_only norway_athlete module_globals.
Proof.
  split; [reflexivity|].
  exact (@build_recommendations_deterministic PyStr.ascii_only
           module_globals norway_athlete norway_athlete eq_refl).
Defined.

Lemma build_recommendations_total_witness :
  validated norway_athlete = true /\
  exists out,
    @build_recommendations PyStr.ascii_only norway_athlete module_globals
    = (Ok out, module_globals).
Proof.
  split; [reflexivity|].
  exact (@build_recommendations_total PyStr.ascii_only norway_athlete
           eq_refl).
Defined.

Lemma agree_norway :
  agree_on_used_fields norway_athlete with_autoimmune_and_email.
Proof. repeat split. Qed.

Lemma unused_fields_do_not_interfere_witness :
  validated norway_athlete = true /\
  validated with_autoimmune_and_email = true /\
  agree_on_used_fields norway_athlete with_autoimmune_and_email /\
  @build_recommendations PyStr.ascii_only norway_athlete module_globals
  = @build_recommendations PyStr.ascii_only with_autoimmune_and_email
      module_globals.
Proof.
  split; [reflexivity|]. split; [reflexivity|]. split; [exact agree_norway|].
  exact (@unused_fields_do_not_interfere PyStr.ascii_only module_globals
           norway_athlete with_autoimmune_and_email
           eq_refl eq_refl agree_norway).
Defined.

Lemma quercetin_or_zinc_brings_omega_3_witness :
  validated allergic = true /\
  exists out,
    @recommendations_for PyStr.ascii_only allergic = Ok out /\
    (recommends out "Quercetin" \/ recommends out "Zinc Picolinate" ->
     recommends out "Omega‑3 (EPA/DHA)").
Proof.
  split; [reflexivity|].
  exact (@quercetin_or_zinc_brings_omega_3 PyStr.ascii_only allergic
           eq_refl).
Defined.

(** * Further properties of the de-duplication step *)

Module DedupMore.
Import PyDict PyDictFacts DedupLoop.

Lemma length_first_occurrences_from l : forall seen,
  (length (first_occurrences_from seen l) <= length l)%nat.
Proof.
  induction l as [|x l IH]; intros seen; simpl; [lia|].
  destruct (existsb (String.eqb x) seen); simpl.
  - specialize (IH seen). lia.
  - specialize (IH (seen ++ [x])). lia.
Qed.

Lemma keys_are_names recs x :
  In x (keys (loop recs [])) <-> In x (map name recs).
Proof.
  rewrite Dedup.keys_loop. simpl.
  rewrite in_first_occurrences_from. simpl. tauto.
Qed.

(** Each record kept is the last one appended under its name. *)
Lemma kept_is_last recs r :
  In r (unique_by_name recs) -> last_named (name r) recs = Some r.
Proof.
  intros Hin.
  assert (Hnd : NoDup (keys (loop recs []))).
  { apply Dedup.NoDup_keys_loop. constructor. }
  pose proof (values_by_keys _ Hnd) as Hv.
  rewrite Dedup.unique_by_name_loop in Hin.
  apply (in_map Some) in Hin. rewrite Hv in Hin.
  apply in_map_iff in Hin as (k & Hk & _).
  rewrite Dedup.get_loop in Hk. simpl in Hk.
  destruct (last_named k recs) as [r'|] eqn:E; [|discriminate].
  injection Hk as ->.
  unfold last_named in E. pose proof E as Hf.
  apply find_some in Hf as [_ Hname]. apply String.eqb_eq in Hname.
  now rewrite Hname.
Qed.

Lemma replace_named_absent r (d : t Recommendation) :
  Forall (fun kv => name (snd kv) = fst kv) d ->
  ~ In (name r) (keys d) ->
  replace_named r (values d) = values d.
Proof.
  unfold replace_named, values, keys.
  induction d as [|[k v] d IH]; simpl; intros Hn Hk; [reflexivity|].
  inversion Hn as [|? ? Hkv Hrest]; subst. simpl in Hkv.
  rewrite IH by tauto.
  destruct (String.eqb_spec (name v) (name r)) as [E|_]; [|reflexivity].
  exfalso. apply Hk. left. congruence.
Qed.

Lemma values_setitem_present r (d : t Recommendation) :
  Forall (fun kv => name (snd kv) = fst kv) d ->
  NoDup (keys d) -> In (name r) (keys d) ->
  values (setitem d (name r) r) = replace_named r (values d).
Proof.
  induction d as [|[k v] d IH]; simpl; intros Hn Hnd Hin; [contradiction|].
  inversion Hn as [|? ? Hkv Hrest]; subst. simpl in Hkv.
  apply NoDup_cons_iff in Hnd as [Hk Hnd].
  unfold replace_named in *. simpl. rewrite Hkv.
  destruct (String.eqb_spec k (name r)) as [->|Hne]; simpl.
  - f_equal. symmetry. now apply replace_named_absent.
  - f_equal. apply IH; try assumption.
    destruct Hin as [E|Hin]; [contradiction | exact Hin].
Qed.

End DedupMore.

Section DedupProperties.

Import PyDict PyDictFacts DedupLoop.

(** X1.  Appending one more record to the list before de-duplication:
    when its name is new the record comes last in the result; when the
    name is there already, the record takes the place of the one kept
    under that name and nothing else moves. *)
Theorem unique_by_name_snoc (recs : list Recommendation)
    (r : Recommendation) :
  unique_by_name (recs ++ [r]) =
  if existsb (String.eqb (name r)) (map name recs)
  then replace_named r (unique_by_name recs)
  else unique_by_name recs ++ [r].
Proof.
  rewrite !Dedup.unique_by_name_loop. unfold loop.
  rewrite fold_left_app. simpl. fold (loop recs []). unfold step at 1.
  assert (Hnamed : Forall (fun kv => name (snd kv) = fst kv) (loop recs [])).
  { apply Dedup.named_loop. constructor. }
  assert (Hnd : NoDup (keys (loop recs []))).
  { apply Dedup.NoDup_keys_loop. constructor. }
  destruct (existsb (String.eqb (name r)) (map name recs)) eqn:E.
  - apply existsb_eqb_In, DedupMore.keys_are_names in E.
    now apply DedupMore.values_setitem_present.
  - assert (Hfresh : ~ In (name r) (keys (loop recs []))).
    { intros Hin. apply DedupMore.keys_are_names, existsb_eqb_In in Hin.
      congruence. }
    rewrite (setitem_fresh _ _ _ Hfresh).
    unfold values. now rewrite map_app.
Qed.

(** X2.  De-duplicating twice changes nothing more. *)
Theorem unique_by_name_idempotent (recs : list Recommendation) :
  unique_by_name (unique_by_name recs) = unique_by_name recs.
Proof.
  apply Dedup.unique_by_name_distinct, Dedup.NoDup_names.
Qed.

(** X3.  The de-duplication step invents nothing and drops no name:
    every record of the result is a record of the input, a name is in the
    result exactly when it is in the input, and the result is no longer
    than the input. *)
Theorem unique_by_name_keeps_names (recs : list Recommendation) :
  (forall r, In r (unique_by_name recs) -> In r recs) /\
  (forall n, In n (map name (unique_by_name recs)) <-> In n (map name recs))
  /\ (length (unique_by_name recs) <= length recs)%nat.
Proof.
  split; [|split].
  - intros r Hin. apply DedupMore.kept_is_last in Hin.
    unfold last_named in Hin. apply find_some in Hin as [Hin _].
    now apply in_rev.
  - intros n. rewrite Dedup.names_are_keys.
    apply DedupMore.keys_are_names.
  - rewrite <- (length_map name (unique_by_name recs)).
    rewrite Dedup.names_are_keys, Dedup.keys_loop. simpl.
    rewrite <- (length_map name recs).
    apply DedupMore.length_first_occurrences_from.
Qed.

(** X4.  A list whose records have distinct names comes back as it is,
    in the same order. *)
Theorem unique_by_name_distinct_names (recs : list Recommendation) :
  NoDup (map name recs) -> unique_by_name recs = recs.
Proof. apply Dedup.unique_by_name_distinct. Qed.

End DedupProperties.

(** * Further properties of the engine *)

Module EngineMore.
Import Rules Fired Engine_run.

Lemma subseq_length {A} (l1 l2 : list A) :
  subseq l1 l2 -> (length l1 <= length l2)%nat.
Proof. induction 1; simpl; lia. Qed.

Lemma subseq_when b r l l' :
  subseq (map name l) l' ->
  subseq (map name (when b r ++ l)) (name r :: l').
Proof. destruct b; simpl; intros Hs; now constructor. Qed.

Lemma selected_in_rule_order b1 b2 b3 b4 b5 b6 b7 b8 :
  subseq (map name (selected b1 b2 b3 b4 b5 b6 b7 b8)) rule_names.
Proof.
  unfold selected. rewrite <- (app_nil_r (when b8 vitamin_d)).
  repeat apply subseq_when. constructor.
Qed.

Lemma geb_lt x n : x < n -> (x >=? n) = false.
Proof. intros Hx. rewrite Z.geb_leb. apply Z.leb_gt. exact Hx. Qed.

Lemma selected_without_vitamin_d b1 b2 b3 b4 b5 b6 b7 b8 :
  filter not_vitamin_d (selected b1 b2 b3 b4 b5 b6 b7 b8)
  = selected b1 b2 b3 b4 b5 b6 b7 false.
Proof.
  destruct b1, b2, b3, b4, b5, b6, b7, b8; vm_compute; reflexivity.
Qed.

Lemma stops_rule {B} (b : bool) key (mk : list string -> Recommendation)
    recs (k : list Recommendation -> Py B) g ks :
  (forall recs', stops_at_first_missing (k recs') g ks) ->
  stops_at_first_missing
    (bind (if b
           then bind (global_getitem CITATIONS key)
                  (fun s => ret (recs ++ [mk s]))
           else ret recs) k) g (lookup_of b key ++ ks).
Proof.
  intros Hk. unfold stops_at_first_missing.
  destruct b; simpl; [|apply Hk].
  unfold missing at 1, bind, global_getitem, PyDict.getitem, ret.
  destruct (PyDict.get (CITATIONS g) key) as [src|]; [|reflexivity].
  apply Hk.
Qed.

Lemma stops_get {V B} (table : Globals -> PyDict.t V) key
    (k : option V -> Py B) g ks :
  stops_at_first_missing (k (PyDict.get (table g) key)) g ks ->
  stops_at_first_missing (bind (global_get table key) k) g ks.
Proof. intros Hk. exact Hk. Qed.

Lemma stops_ret {A} (a : A) g : stops_at_first_missing (ret a) g [].
Proof. exists a. reflexivity. Qed.

End EngineMore.

Section EngineProperties.

Context `{PyStr.UnicodeTables}.

Import Rules Fired Engine_run EngineMore.

(** X5.  The recommendations come in the order of the rules: the names
    of the output are the eight rule names with some left out, so there
    are at most eight of them, Magnesium Glycinate is first whenever it is
    there and Vitamin D3 last. *)
Theorem output_follows_rule_order (d : SurveyResponse) :
  exists out, recommendations_for d = Ok out /\
    subseq (map name out) rule_names /\ (length out <= 8)%nat.
Proof.
  exists (fired d). split; [apply recommendations_for_fired|].
  assert (Hs : subseq (map name (fired d)) rule_names)
    by apply selected_in_rule_order.
  split; [exact Hs|].
  apply subseq_length in Hs. now rewrite length_map in Hs.
Qed.

(** X6.  Raising ratings never takes a recommendation away: if no rating
    read by the rules is lower in the second survey and the country is the
    same, every record returned for the first is returned for the
    second. *)
Theorem higher_ratings_keep_recommendations (d1 d2 : SurveyResponse) :
  used_ratings_le d1 d2 -> country d1 = country d2 ->
  exists out1 out2,
    recommendations_for d1 = Ok out1 /\ recommendations_for d2 = Ok out2 /\
    forall r, In r out1 -> In r out2.
Proof.
  intros (E1 & E2 & E3 & E4 & E5 & E6 & E7 & E8) Hc.
  exists (fired d1), (fired d2).
  split; [apply recommendations_for_fired|].
  split; [apply recommendations_for_fired|].
  intros r. rewrite !in_fired, Hc.
  intros [[? ->]|[[? ->]|[[? ->]|[[? ->]|[[? ->]|[[? ->]|[[? ->]|[? ->]]]]]]]].
  - left. split; [lia|reflexivity].
  - right; left. split; [lia|reflexivity].
  - do 2 right; left. split; [lia|reflexivity].
  - do 3 right; left. split; [lia|reflexivity].
  - do 4 right; left. split; [lia|reflexivity].
  - do 5 right; left. split; [lia|reflexivity].
  - do 6 right; left. split; [lia|reflexivity].
  - do 7 right. split; [assumption|reflexivity].
Qed.

(** X7.  The output is empty exactly when no rule fires: energy below 4,
    the other seven ratings read by the rules below 3, and a country
    whose lower-cased name is not in the deficiency table. *)
Theorem empty_output_iff (d : SurveyResponse) :
  exists out, recommendations_for d = Ok out /\
    (out = [] <->
     below_all_thresholds d /\
     ~ In (PyStr.lower (country d)) vitamin_d_countries).
Proof.
  exists (fired d). split; [apply recommendations_for_fired|].
  split.
  - intros Hnil.
    assert (Hno : forall r, ~ In r (fired d)) by (rewrite Hnil; auto).
    assert (H1 : ~ energy d >= 4)
      by (intros ?; apply (Hno magnesium), in_fired; tauto).
    assert (H2 : ~ muscle_gain d >= 3)
      by (intros ?; apply (Hno creatine), in_fired; tauto).
    assert (H3 : ~ (gut_health d >= 3 \/ digestion d >= 3))
      by (intros ?; apply (Hno probiotic), in_fired; tauto).
    assert (H4 : ~ (stress d >= 3 \/ sleep d >= 3))
      by (intros ?; apply (Hno ashwagandha), in_fired; tauto).
    assert (H5 : ~ (skin d >= 3 \/ allergies d >= 3))
      by (intros ?; apply (Hno omega_3), in_fired; tauto).
    assert (H8 : ~ In (PyStr.lower (country d)) vitamin_d_countries)
      by (intros ?; apply (Hno vitamin_d), in_fired; tauto).
    unfold below_all_thresholds. split; [lia | exact H8].
  - intros [(E1 & E2 & E3 & E4 & E5 & E6 & E7 & E8) Hc].
    destruct (fired d) as [|r l] eqn:E; [reflexivity|].
    assert (Hin : In r (fired d)) by (rewrite E; now left).
    apply in_fired in Hin. exfalso.
    destruct Hin as [[? _]|[[? _]|[[? _]|[[? _]|[[? _]|[[? _]|[[? _]|[? _]]]]]]]];
      first [lia | contradiction].
Qed.

(** X8.  The country counts without regard to letter case: two surveys
    with the same ratings read by the rules and ASCII countries that
    differ in case only get the same outcome, on any globals. *)
Theorem country_case_is_ignored (g : Globals) (d1 d2 : SurveyResponse) :
  same_used_ratings d1 d2 ->
  PyStr.isascii (country d1) = true ->
  case_variant (country d1) (country d2) ->
  build_recommendations d1 g = build_recommendations d2 g.
Proof.
  intros (E1 & E2 & E3 & E4 & E5 & E6 & E7 & E8) Ha1 [Ha2 Hlow].
  assert (Hl : PyStr.lower (country d1) = PyStr.lower (country d2)).
  { unfold PyStr.lower. now rewrite Ha1, Ha2, Hlow. }
  unfold build_recommendations.
  now rewrite E1, E2, E3, E4, E5, E6, E7, E8, Hl.
Qed.

(** X9.  The country decides on Vitamin D3 and on nothing else: two
    surveys with the same ratings read by the rules get the same
    recommendations once the Vitamin D3 record is set aside. *)
Theorem country_only_moves_vitamin_d (d1 d2 : SurveyResponse) :
  same_used_ratings d1 d2 ->
  exists out1 out2,
    recommendations_for d1 = Ok out1 /\ recommendations_for d2 = Ok out2 /\
    filter not_vitamin_d out1 = filter not_vitamin_d out2.
Proof.
  intros (E1 & E2 & E3 & E4 & E5 & E6 & E7 & E8).
  exists (fired d1), (fired d2).
  split; [apply recommendations_for_fired|].
  split; [apply recommendations_for_fired|].
  unfold fired. rewrite !selected_without_vitamin_d.
  now rewrite E1, E2, E3, E4, E5, E6, E7, E8.
Qed.

(** X10.  Every recommendation returned has a dosage and at least one
    citation. *)
Theorem recommendations_are_documented (d : SurveyResponse) :
  exists out, recommendations_for d = Ok out /\
    forall r, In r out -> dosage r <> None /\ sources r <> [].
Proof.
  exists (fired d). split; [apply recommendations_for_fired|].
  intros r Hin. apply in_fired in Hin.
  destruct Hin as [[_ ->]|[[_ ->]|[[_ ->]|[[_ ->]|[[_ ->]|[[_ ->]|[[_ ->]|[_ ->]]]]]]]];
    split; discriminate.
Qed.

(** X11.  On globals whose [CITATIONS] maps keys to lists of strings,
    as in main.py, the engine succeeds as soon as the eight keys of the
    rules are present, and it leaves the globals as they were. *)
Theorem complete_citations_suffice (g : Globals) (d : SurveyResponse) :
  citations_complete g ->
  exists out, build_recommendations d g = (Ok out, g).
Proof.
  intros Hall.
  assert (Hsrc : forall k, In k citation_keys ->
                   exists src, PyDict.get (CITATIONS g) k = Some src).
  { intros k Hk. specialize (Hall k Hk).
    destruct (PyDict.get (CITATIONS g) k) as [src|]; [eauto|contradiction]. }
  destruct (Hsrc "magnesium") as [s1 K1]; [simpl; tauto|].
  destruct (Hsrc "creatine") as [s2 K2]; [simpl; tauto|].
  destruct (Hsrc "probiotic") as [s3 K3]; [simpl; tauto|].
  destruct (Hsrc "ashwagandha") as [s4 K4]; [simpl; tauto|].
  destruct (Hsrc "omega_3") as [s5 K5]; [simpl; tauto|].
  destruct (Hsrc "quercetin") as [s6 K6]; [simpl; tauto|].
  destruct (Hsrc "zinc") as [s7 K7]; [simpl; tauto|].
  destruct (Hsrc "vitamin_d") as [s8 K8]; [simpl; tauto|].
  eexists. unfold build_recommendations.
  do 7 (etransitivity; [apply PyFacts.run_rule; eassumption | cbv beta]).
  rewrite PyFacts.run_get.
  etransitivity; [apply PyFacts.run_rule; eassumption | cbv beta].
  reflexivity.
Qed.

(** X12.  On globals whose [CITATIONS] maps keys to lists of strings,
    as in main.py, the engine fails exactly when a rule that fires does
    not find its key in [CITATIONS]: it then raises [KeyError] for the
    first such key in the order of the rules, and otherwise it returns a
    list.  The globals are as before either way. *)
Theorem engine_stops_at_first_missing_key
    (g : Globals) (d : SurveyResponse) :
  match first_missing_key g d with
  | Some k => build_recommendations d g = (Raised (KeyError k), g)
  | None => exists out, build_recommendations d g = (Ok out, g)
  end.
Proof.
  change (stops_at_first_missing (build_recommendations d) g
            (firing_keys g d)).
  unfold build_recommendations, firing_keys.
  do 7 (apply stops_rule; intros ?).
  apply stops_get.
  rewrite <- (app_nil_r (lookup_of _ "vitamin_d")).
  apply stops_rule; intros ?.
  apply stops_ret.
Qed.

(** X13.  [CITATIONS] is read for the rules that fire only: when no
    rule on the ratings fires and the country's entry is not "vitamin_d",
    the engine returns the empty list even if [CITATIONS] is empty. *)
Theorem no_rule_no_lookup (g : Globals) (d : SurveyResponse) :
  below_all_thresholds d ->
  eq_str (PyDict.get (COUNTRY_DEFICIENCY g) (PyStr.lower (country d)))
    "vitamin_d" = false ->
  build_recommendations d g = (Ok [], g).
Proof.
  intros (E1 & E2 & E3 & E4 & E5 & E6 & E7 & E8) Hc.
  unfold build_recommendations.
  rewrite (geb_lt _ _ E1), (geb_lt _ _ E2), (geb_lt _ _ E3),
    (geb_lt _ _ E4), (geb_lt _ _ E5), (geb_lt _ _ E6), (geb_lt _ _ E7),
    (geb_lt _ _ E8).
  assert (E9 : (allergies d >=? 4) = false) by (apply geb_lt; lia).
  assert (E10 : (skin d >=? 4) = false) by (apply geb_lt; lia).
  rewrite E9, E10. cbn [orb].
  unfold bind at 1 2 3 4 5 6 7. unfold ret at 1 2 3 4 5 6 7. cbv beta iota.
  rewrite PyFacts.run_get, Hc. reflexivity.
Qed.

(** X14.  The first rule fails first: with energy at 4 or more and no
    "magnesium" entry in [CITATIONS], the engine raises
    [KeyError "magnesium"], whatever the other answers are. *)
Theorem missing_magnesium_raises (g : Globals) (d : SurveyResponse) :
  energy d >= 4 ->
  PyDict.get (CITATIONS g) "magnesium" = None ->
  build_recommendations d g = (Raised (KeyError "magnesium"), g).
Proof.
  intros He Hk. apply geb_ge in He.
  unfold build_recommendations. rewrite He.
  unfold bind at 1 2. unfold global_getitem at 1. unfold PyDict.getitem.
  now rewrite Hk.
Qed.

End EngineProperties.

(** * Properties of the handlers *)

Section HandlerProperties.

Context `{PyStr.UnicodeTables}.

Import Rules Fired Engine_run EngineMore.

(** The answer of the handler on the module's tables, and its size. *)
Lemma recommend_answers_aux (d : SurveyResponse) :
  exists res, recommend d module_globals = (Ok res, module_globals) /\
    (length (recommendations res) <= 8)%nat.
Proof.
  eexists. split.
  - unfold recommend, bind. rewrite build_recommendations_run. reflexivity.
  - simpl.
    pose proof (selected_in_rule_order
                  (energy d >=? 4) (muscle_gain d >=? 3)
                  ((gut_health d >=? 3) || (digestion d >=? 3))
                  ((stress d >=? 3) || (sleep d >=? 3))
                  ((skin d >=? 3) || (allergies d >=? 3))
                  (allergies d >=? 4) (skin d >=? 4) (deficient d)) as Hs.
    apply subseq_length in Hs. now rewrite length_map in Hs.
Qed.

(** X15.  On the module's tables [POST /recommend] always answers: the
    image address is the fixed one, the recommendations are the engine's
    list for the same survey, their names are distinct and there are at
    most eight; the globals are as before. *)
Theorem recommend_answers (d : SurveyResponse) :
  exists res, recommend d module_globals = (Ok res, module_globals) /\
    package_image_url res =
      "https://images.unsplash.com/photo-1586015555751-63f17a0b3bd9?q=80&w=1200&auto=format&fit=crop" /\
    recommendations_for d = Ok (recommendations res) /\
    NoDup (map name (recommendations res)) /\
    (length (recommendations res) <= 8)%nat.
Proof.
  eexists. split.
  - unfold recommend, bind. rewrite build_recommendations_run. reflexivity.
  - simpl. split; [reflexivity|].
    split; [apply recommendations_for_fired|].
    pose proof (selected_in_rule_order
                  (energy d >=? 4) (muscle_gain d >=? 3)
                  ((gut_health d >=? 3) || (digestion d >=? 3))
                  ((stress d >=? 3) || (sleep d >=? 3))
                  ((skin d >=? 3) || (allergies d >=? 3))
                  (allergies d >=? 4) (skin d >=? 4) (deficient d)) as Hs.
    fold (fired d) in Hs. split.
    + unfold fired. rewrite <- selected_unique. apply Dedup.NoDup_names.
    + apply subseq_length in Hs. now rewrite length_map in Hs.
Qed.

(** X16.  [POST /recommend] neither hides nor adds a failure: on any
    globals it raises exactly the exception the engine raises, it answers
    exactly when the engine returns, and it leaves the globals alone. *)
Theorem recommend_fails_like_the_engine (g : Globals) (d : SurveyResponse) :
  snd (recommend d g) = g /\
  (forall e, fst (recommend d g) = Raised e <->
             fst (build_recommendations d g) = Raised e) /\
  (forall res, fst (recommend d g) = Ok res ->
               fst (build_recommendations d g) = Ok (recommendations res)).
Proof.
  pose proof (build_recommendations_read_only d g) as Hg.
  unfold recommend, bind, ret.
  destruct (build_recommendations d g) as [[recs|e'] g1]; simpl in *.
  - split; [exact Hg|]. split.
    + intros e. split; discriminate.
    + intros res Hres. injection Hres as <-. reflexivity.
  - split; [exact Hg|]. split.
    + intros e. split; intros Heq; injection Heq as ->; reflexivity.
    + intros res Hres. discriminate Hres.
Qed.

(** X17.  Sending on what [POST /recommend] returned: the acknowledgement
    counts the recommendations of the answer, a number from 0 to 8, and
    echoes the address. *)
Theorem recommend_then_send_email (d : SurveyResponse) (address : string) :
  exists res n,
    bind (recommend d)
      (fun res =>
         ack <- send_email {| payload_email := address;
                              payload_recommendations :=
                                recommendations res |} ;;
         ret (res, ack)) module_globals
    = (Ok (res, [ ("status", JStr "queued");
                  ("email", JStr address);
                  ("count", JInt n) ]), module_globals) /\
    n = Z.of_nat (length (recommendations res)) /\ 0 <= n <= 8.
Proof.
  destruct (recommend_answers_aux d) as (res & Hrun & Hlen).
  exists res, (Z.of_nat (length (recommendations res))).
  split; [|split; [reflexivity | lia]].
  unfold bind at 1. rewrite Hrun. reflexivity.
Qed.

End HandlerProperties.

(** ** The further properties at concrete inputs *)

Lemma distinct_pair :
  NoDup (map name [Rules.magnesium; Rules.zinc]).
Proof. apply Engine_run.distinctb_NoDup. reflexivity. Qed.

Lemma unique_by_name_distinct_names_witness :
  NoDup (map name [Rules.magnesium; Rules.zinc]) /\
  unique_by_name [Rules.magnesium; Rules.zinc]
  = [Rules.magnesium; Rules.zinc].
Proof.
  split; [exact distinct_pair|].
  exact (unique_by_name_distinct_names [Rules.magnesium; Rules.zinc]
           distinct_pair).
Defined.

Lemma norway_below_fives :
  used_ratings_le norway_athlete (survey 5 5 5 5 5 5 5 5 5 "Norway").
Proof. unfold used_ratings_le. simpl. lia. Qed.

Lemma higher_ratings_keep_recommendations_witness :
  used_ratings_le norway_athlete (survey 5 5 5 5 5 5 5 5 5 "Norway") /\
  country norway_athlete = country (survey 5 5 5 5 5 5 5 5 5 "Norway") /\
  exists out1 out2,
    @recommendations_for PyStr.ascii_only norway_athlete = Ok out1 /\
    @recommendations_for PyStr.ascii_only
      (survey 5 5 5 5 5 5 5 5 5 "Norway") = Ok out2 /\
    forall r, In r out1 -> In r out2.
Proof.
  split; [exact norway_below_fives|]. split; [reflexivity|].
  exact (@higher_ratings_keep_recommendations PyStr.ascii_only
           norway_athlete (survey 5 5 5 5 5 5 5 5 5 "Norway")
           norway_below_fives eq_refl).
Defined.

Lemma same_ratings_norway : same_used_ratings norway_athlete norway_upper.
Proof. repeat split. Qed.

Lemma country_case_is_ignored_witness :
  same_used_ratings norway_athlete norway_upper /\
  PyStr.isascii (country norway_athlete) = true /\
  case_variant (country norway_athlete) (country norway_upper) /\
  @build_recommendations PyStr.ascii_only norway_athlete module_globals
  = @build_recommendations PyStr.ascii_only norway_upper module_globals.
Proof.
  split; [exact same_ratings_norway|]. split; [reflexivity|].
  split; [split; reflexivity|].
  exact (@country_case_is_ignored PyStr.ascii_only module_globals
           norway_athlete norway_upper same_ratings_norway eq_refl
           (conj eq_refl eq_refl)).
Defined.

Lemma same_ratings_norway_france :
  same_used_ratings norway_athlete (survey 5 1 3 1 1 1 4 1 1 "France").
Proof. repeat split. Qed.

Lemma country_only_moves_vitamin_d_witness :
  same_used_ratings norway_athlete (survey 5 1 3 1 1 1 4 1 1 "France") /\
  exists out1 out2,
    @recommendations_for PyStr.ascii_only norway_athlete = Ok out1 /\
    @recommendations_for PyStr.ascii_only
      (survey 5 1 3 1 1 1 4 1 1 "France") = Ok out2 /\
    filter not_vitamin_d out1 = filter not_vitamin_d out2.
Proof.
  split; [exact same_ratings_norway_france|].
  exact (@country_only_moves_vitamin_d PyStr.ascii_only norway_athlete
           (survey 5 1 3 1 1 1 4 1 1 "France") same_ratings_norway_france).
Defined.

Lemma module_citations_complete : citations_complete module_globals.
Proof.
  intros k Hk. simpl in Hk.
  repeat (destruct Hk as [<-|Hk]; [discriminate|]). contradiction.
Qed.

Lemma complete_citations_suffice_witness :
  citations_complete module_globals /\
  exists out,
    @build_recommendations PyStr.ascii_only all_fives_sweden module_globals
    = (Ok out, module_globals).
Proof.
  split; [exact module_citations_complete|].
  exact (@complete_citations_suffice PyStr.ascii_only module_globals
           all_fives_sweden module_citations_complete).
Defined.

Lemma norway_fails_without_citations :
  @build_recommendations PyStr.ascii_only norway_athlete no_citations
  = (Raised (KeyError "magnesium"), no_citations).
Proof. reflexivity. Qed.

(** Two keys missing: the engine stops at the first in rule order. *)
Example zinc_and_creatine_missing :
  let g := {| CITATIONS :=
                [("magnesium", ["m"]); ("probiotic", ["p"]);
                 ("ashwagandha", ["a"]); ("omega_3", ["o"]);
                 ("quercetin", ["q"]); ("vitamin_d", ["v"])];
              COUNTRY_DEFICIENCY := COUNTRY_DEFICIENCY module_globals |} in
  @first_missing_key PyStr.ascii_only g all_fives_sweden = Some "creatine" /\
  @build_recommendations PyStr.ascii_only all_fives_sweden g
  = (Raised (KeyError "creatine"), g).
Proof. split; reflexivity. Qed.

Lemma france_below_thresholds : below_all_thresholds france_all_ones.
Proof. unfold below_all_thresholds. simpl. lia. Qed.

Lemma no_rule_no_lookup_witness :
  below_all_thresholds france_all_ones /\
  @build_recommendations PyStr.ascii_only france_all_ones no_citations
  = (Ok [], no_citations).
Proof.
  split; [exact france_below_thresholds|].
  exact (@no_rule_no_lookup PyStr.ascii_only no_citations france_all_ones
           france_below_thresholds eq_refl).
Defined.

Lemma norway_energy : energy norway_athlete >= 4.
Proof. simpl. lia. Qed.

Lemma missing_magnesium_raises_witness :
  energy norway_athlete >= 4 /\
  PyDict.get (CITATIONS no_citations) "magnesium" = None /\
  @build_recommendations PyStr.ascii_only norway_athlete no_citations
  = (Raised (KeyError "magnesium"), no_citations).
Proof.
  split; [exact norway_energy|]. split; [reflexivity|].
  exact (@missing_magnesium_raises PyStr.ascii_only no_citations
           norway_athlete norway_energy eq_refl).
Defined.

(** All eight rules can fire at once. *)
Example all_fives_sweden_run :
  option_map (map name)
    match @recommendations_for PyStr.ascii_only all_fives_sweden with
    | Ok out => Some out
    | Raised _ => None
    end
  = Some rule_names.
Proof. vm_compute. reflexivity. Qed.
